(** * areaMap.py: the MunicipalHub analytics page

    A shallow embedding of the page script [areaMap.py]: the fetch, the
    flattening of the geocode column into [lat] and [lon], the [dropna]
    filter, the three [st.stop()] checkpoints, [priority_to_color], the
    tooltip f-string, the three key metrics, the counts behind the charts
    and the CSV export.

    The script is a sequence of pandas and Streamlit calls.  The frame is
    modelled by its rows; every pandas call the script makes is a function
    on those rows, named after the call.  Python exceptions that the script
    does not catch are results of the model, not omitted.

    The body of the answer is a JSON array of query objects: six leaf fields
    and an optional [geocode], which is null or a structure.  A cell holds
    the value its record gave.  pandas stores a column of numbers that also
    has a null as floats, which changes how such a number prints and nothing
    else that the script looks at; the statements on printed text are
    therefore made on the cells of a row. *)

From Stdlib Require Import ZArith List String Ascii Bool Lia DecimalString Permutation.
Import ListNotations.

Local Open Scope string_scope.
Local Open Scope list_scope.

(** ** Python values *)

Module Py.

(** The values found at the leaves of the parsed JSON body.  A float is
    carried by its [repr]: the script never computes with a coordinate, it
    only tests it for null and prints it.  [PyNaN] is the float nan, which
    pandas also puts in a cell whose record lacks the column's key. *)
Inductive pyval : Type :=
| PyNone
| PyNaN
| PyInt (z : Z)
| PyFloat (repr : string)
| PyStr (s : string).

(** A Python dict with string keys, read by first match. *)
Definition dict : Type := list (string * pyval).

Fixpoint dict_get (d : dict) (k : string) : option pyval :=
  match d with
  | [] => None
  | (k', v) :: d' => if String.eqb k' k then Some v else dict_get d' k
  end.

(** What a cell of the [geocode] column holds: the record's structure,
    [None] for a JSON null, and the float nan for a record without the
    key. *)
Inductive geocell : Type :=
| GeoNaN
| GeoNone
| GeoDict (d : dict).

Inductive exn : Type :=
| TypeError
| KeyError.

Inductive result (A : Type) : Type :=
| Ok (a : A)
| Raise (e : exn).
Arguments Ok {A} a.
Arguments Raise {A} e.

Definition bind {A B : Type} (r : result A) (k : A -> result B) : result B :=
  match r with
  | Ok a => k a
  | Raise e => Raise e
  end.

(** [bool(x)]: [None] and the empty dict are false, nan is a non-zero
    float and so is true. *)
Definition truthy (x : geocell) : bool :=
  match x with
  | GeoNaN => true
  | GeoNone => false
  | GeoDict [] => false
  | GeoDict (_ :: _) => true
  end.

(** [k in x]: membership among the keys of a dict; a float and [None]
    are not iterable. *)
Definition contains (k : string) (x : geocell) : result bool :=
  match x with
  | GeoDict d => Ok (match dict_get d k with Some _ => true | None => false end)
  | GeoNaN | GeoNone => Raise TypeError
  end.

(** [x[k]] *)
Definition getitem (x : geocell) (k : string) : result pyval :=
  match x with
  | GeoDict d =>
      match dict_get d k with
      | Some v => Ok v
      | None => Raise KeyError
      end
  | GeoNaN | GeoNone => Raise TypeError
  end.

(** [v == lit] for a string literal [lit]: only an equal string is equal. *)
Definition eq_str (v : pyval) (lit : string) : bool :=
  match v with
  | PyStr s => String.eqb s lit
  | _ => false
  end.

(** [str(v)], which is what an f-string field without a format
    specification prints. *)
Definition str (v : pyval) : string :=
  match v with
  | PyNone => "None"
  | PyNaN => "nan"
  | PyInt z => NilEmpty.string_of_int (Z.to_int z)
  | PyFloat repr => repr
  | PyStr s => s
  end.

(** Equality of cell values as the hash table behind [nunique] sees the
    labels of a column: strings by their characters, ints by their
    value. *)
Definition eqb (a b : pyval) : bool :=
  match a, b with
  | PyNone, PyNone => true
  | PyNaN, PyNaN => true
  | PyInt x, PyInt y => Z.eqb x y
  | PyFloat r, PyFloat r' => String.eqb r r'
  | PyStr s, PyStr s' => String.eqb s s'
  | _, _ => false
  end.

End Py.
Import Py.

Declare Scope py_scope.
Notation "x <- r ;; k" := (Py.bind r (fun x => k))
  (at level 61, r at next level, right associativity) : py_scope.
Local Open Scope py_scope.

(** The line feed that ["\n"] denotes in the Python source. *)
Definition LF : string := String (ascii_of_nat 10) EmptyString.

(** ** pandas *)

Module Pandas.

(** [pd.isna] on one cell. *)
Definition isna (v : pyval) : bool :=
  match v with
  | PyNone | PyNaN => true
  | _ => false
  end.

(** [Series.apply(f)]: [f] on every cell from the first to the last; the
    first exception ends the call. *)
Fixpoint apply {A B : Type} (f : A -> result B) (s : list A) : result (list B) :=
  match s with
  | [] => Ok []
  | x :: s' =>
      y <- f x ;;
      ys <- apply f s' ;;
      Ok (y :: ys)
  end.

(** [Series.unique()] on the cells that are left: first occurrences, in
    order. *)
Fixpoint unique (s : list pyval) : list pyval :=
  match s with
  | [] => []
  | v :: s' => v :: filter (fun w => negb (Py.eqb v w)) (unique s')
  end.

(** [Series.nunique()], whose default [dropna=True] leaves the null cells
    out of the count. *)
Definition nunique (s : list pyval) : nat :=
  List.length (unique (filter (fun v => negb (isna v)) s)).

End Pandas.
Import Pandas.

(** ** The records and the fetch *)

(** One object of the JSON array the endpoint answers with.  The six query
    fields are leaves; [geocode] is [None] when the object has no such key. *)
Record QueryRecord : Type := mkQuery {
  query_id : pyval;
  query_address : pyval;
  region : pyval;
  query_status : pyval;
  priority_status : pyval;
  query_description : pyval;
  geocode : option geocell
}.

(** What lines 27-29 meet: [requests.get] or [raise_for_status] raises a
    [RequestException], [response.json()] raises a [ValueError], or the body
    parses.  The string is the text of the exception. *)
Inductive response : Type :=
| RequestException (e : string)
| ValueError (e : string)
| Json (data : list QueryRecord).

(** The three Streamlit calls that are followed by [st.stop()]. *)
Inductive banner : Type :=
| StError (msg : string)
| StInfo (msg : string)
| StWarning (msg : string).

(** How a run of the script ends at a given line: it goes on with a value,
    it stops behind a banner, or an exception nobody catches ends it. *)
Inductive outcome (A : Type) : Type :=
| Continue (a : A)
| Stop (b : banner)
| Uncaught (e : exn).
Arguments Continue {A} a.
Arguments Stop {A} b.
Arguments Uncaught {A} e.

Definition and_then {A B : Type} (o : outcome A) (k : A -> outcome B) : outcome B :=
  match o with
  | Continue a => k a
  | Stop b => Stop b
  | Uncaught e => Uncaught e
  end.

(** Lines 26-32. *)
Definition fetch (r : response) : outcome (list QueryRecord) :=
  match r with
  | RequestException e | ValueError e =>
      Stop (StError ("Could not fetch or parse data from API: " ++ e))
  | Json data => Continue data
  end.

(** ** The normalizer, lines 34-48 *)

(** [df.empty]; a record always brings its six columns, so the frame is
    empty exactly when it has no row. *)
Definition empty {A : Type} (df : list A) : bool :=
  match df with
  | [] => true
  | _ :: _ => false
  end.

(** ["geocode" in df.columns]: [pd.DataFrame] makes a column of every key
    that some record has. *)
Definition geocode_in_columns (df : list QueryRecord) : bool :=
  existsb (fun r => match geocode r with Some _ => true | None => false end) df.

(** [df["geocode"]]: a record without the key has nan in its cell.  (In a
    column that holds nothing but nulls and missing keys pandas stores nan
    for the nulls too; line 40 then raises on the first cell instead of on
    the first missing one, and lines 39-48 end the same way.) *)
Definition geocode_cell (r : QueryRecord) : geocell :=
  match geocode r with
  | Some x => x
  | None => GeoNaN
  end.

(** [lambda x: x[key] if x and key in x else None], with ["lat"] on line 40
    and ["lng"] on line 41. *)
Definition coordinate (key : string) (x : geocell) : result pyval :=
  if truthy x then
    b <- contains key x ;;
    if b then getitem x key else Ok PyNone
  else Ok PyNone.

(** A row of the frame once [lat] and [lon] are assigned. *)
Record Row : Type := mkRow {
  record : QueryRecord;
  lat : pyval;
  lon : pyval
}.

(** Lines 40-41: the whole [lat] column is computed before the [lon]
    column is begun.  The cells of the new columns are the values the
    lambda returned; pandas may then store a column under one type (an
    integer beside a null or a float as the float of the same value, a null
    as nan), which changes neither which cells are null nor the rows. *)
Definition assign_lat_lon (df : list QueryRecord) : result (list Row) :=
  lats <- apply (coordinate "lat") (map geocode_cell df) ;;
  lons <- apply (coordinate "lng") (map geocode_cell df) ;;
  Ok (map (fun c => mkRow (fst c) (fst (snd c)) (snd (snd c)))
          (combine df (combine lats lons))).

(** [df.dropna(subset=["lat", "lon"])] *)
Definition dropna (df : list Row) : list Row :=
  filter (fun r => negb (isna (lat r)) && negb (isna (lon r))) df.

Definition no_data : string :=
  "Waiting for data... No active geocode queries found at the moment.".

Definition no_valid_geocodes : string :=
  "No data with valid geocodes to display.".

(** Lines 39-48. *)
Definition normalize (df : list QueryRecord) : outcome (list Row) :=
  if negb (empty df) && geocode_in_columns df then
    match assign_lat_lon df with
    | Raise e => Uncaught e
    | Ok rows =>
        let rows := dropna rows in
        if empty rows then Stop (StWarning no_valid_geocodes)
        else Continue rows
    end
  else Stop (StInfo no_data).

(** ** The presenter, lines 51-70 *)

Definition priority_to_color (priority : pyval) : list Z :=
  if eq_str priority "urgent" then [255; 0; 0; 200]%Z
  else if eq_str priority "high" then [255; 255; 0; 200]%Z
  else if eq_str priority "medium" then [255; 165; 0; 200]%Z
  else [0; 200; 0; 200]%Z.

(** The f-string of lines 61-66. *)
Definition tooltip_text (x : QueryRecord) : string :=
  "ID: " ++ str (query_id x) ++ LF ++
  "Address: " ++ str (query_address x) ++ LF ++
  "Region: " ++ str (region x) ++ LF ++
  "Status: " ++ str (query_status x) ++ LF ++
  "Priority: " ++ str (priority_status x) ++ LF ++
  "description: " ++ str (query_description x) ++ " ".

Record DisplayRow : Type := mkDisplay {
  row : Row;
  tooltip : string;
  color : list Z
}.

(** Lines 60-70, row by row. *)
Definition present (df : list Row) : list DisplayRow :=
  map (fun r => mkDisplay r (tooltip_text (record r))
                          (priority_to_color (priority_status (record r)))) df.

(** ** The renderer: the key metrics, lines 102-109 *)

Record Page : Type := mkPage {
  table : list DisplayRow;
  total_queries : nat;
  number_of_regions : nat;
  urgent_queries : nat
}.

Definition region_of (r : DisplayRow) : pyval := region (record (row r)).
Definition priority_of (r : DisplayRow) : pyval := priority_status (record (row r)).

Definition render (df : list DisplayRow) : Page :=
  {| table := df;
     total_queries := List.length df;
     number_of_regions := nunique (map region_of df);
     urgent_queries :=
       List.length (filter (fun r => eq_str (priority_of r) "urgent") df) |}.

(** Lines 26-70 and 102-109 in the order they run: the fetch, the
    normalizer, the presenter and the three key metrics.  [Continue page]
    says that the script has come to its key metrics with this table; the
    calls that draw the page (the table view of line 82, the download
    button, the charts, the map) are calls into Streamlit, pydeck and
    altair and are not part of [run], nor is what those calls may raise. *)
Definition run (r : response) : outcome Page :=
  and_then (fetch r) (fun data =>
  and_then (normalize data) (fun df =>
  Continue (render (present df)))).

(** ** Concrete inputs *)

(** Scenario C of the specification: one geocoded, urgent query. *)
Definition scenario_c : QueryRecord :=
  {| query_id := PyInt 1;
     query_address := PyStr "12 Main Rd";
     region := PyStr "Gauteng";
     query_status := PyStr "open";
     priority_status := PyStr "urgent";
     query_description := PyStr "Burst pipe";
     geocode := Some (GeoDict [("lat", PyFloat "-26.2"); ("lng", PyFloat "28.0")]) |}.

(** A query whose JSON object has no [geocode] key at all. *)
Definition without_geocode : QueryRecord :=
  {| query_id := PyInt 2;
     query_address := PyStr "3 Long St";
     region := PyStr "Gauteng";
     query_status := PyStr "open";
     priority_status := PyStr "low";
     query_description := PyStr "Pothole";
     geocode := None |}.

(** Scenario B: a query whose [geocode] is the JSON null. *)
Definition null_geocode : QueryRecord :=
  {| query_id := PyInt 3;
     query_address := PyStr "7 Hill Ave";
     region := PyStr "Limpopo";
     query_status := PyStr "closed";
     priority_status := PyStr "high";
     query_description := PyStr "Street light";
     geocode := Some GeoNone |}.

(** A second urgent query, in another region and at another place. *)
Definition urgent_elsewhere : QueryRecord :=
  {| query_id := PyStr "Q-77";
     query_address := PyStr "1 Beach Rd";
     region := PyStr "Western Cape";
     query_status := PyStr "assigned";
     priority_status := PyStr "urgent";
     query_description := PyStr "Sewage spill";
     geocode := Some (GeoDict [("lng", PyFloat "18.4"); ("lat", PyFloat "-33.9")]) |}.

(** A query whose structure has a [lat] but a null [lng]. *)
Definition half_geocoded : QueryRecord :=
  {| query_id := PyInt 4;
     query_address := PyStr "9 Dam St";
     region := PyNone;
     query_status := PyStr "open";
     priority_status := PyNone;
     query_description := PyStr "Leak";
     geocode := Some (GeoDict [("lat", PyFloat "-25.7"); ("lng", PyNone)]) |}.

(** Scenario D: a second query in Gauteng, of another priority. *)
Definition second_in_gauteng : QueryRecord :=
  {| query_id := PyInt 5;
     query_address := PyStr "40 Market St";
     region := PyStr "Gauteng";
     query_status := PyStr "open";
     priority_status := PyStr "high";
     query_description := PyStr "Blocked drain";
     geocode := Some (GeoDict [("lat", PyFloat "-26.1"); ("lng", PyFloat "28.1")]) |}.

(** ** What the normalizer computes, row by row *)

(** The value the lambda of lines 40-41 gives on a structure. *)
Definition entry (d : dict) (key : string) : pyval :=
  match dict_get d key with
  | Some v => v
  | None => PyNone
  end.

Definition flat (key : string) (x : geocell) : pyval :=
  match x with
  | GeoDict d => entry d key
  | _ => PyNone
  end.

Definition flat_row (r : QueryRecord) : Row :=
  mkRow r (flat "lat" (geocode_cell r)) (flat "lng" (geocode_cell r)).

Definition is_nan_cell (x : geocell) : bool :=
  match x with
  | GeoNaN => true
  | _ => false
  end.

Definition has_nan (df : list QueryRecord) : bool :=
  existsb (fun r => is_nan_cell (geocode_cell r)) df.

Definition notnull (r : Row) : bool :=
  negb (isna (lat r)) && negb (isna (lon r)).

(** ** The tooltip, read as lines *)

(** [s.split("\n")]: the pieces of [s] between its line feeds. *)
Fixpoint split_lines (s : string) : list string :=
  match s with
  | EmptyString => [EmptyString]
  | String c s' =>
      if Ascii.eqb c (ascii_of_nat 10) then EmptyString :: split_lines s'
      else match split_lines s' with
           | [] => [String c EmptyString]
           | l :: ls => String c l :: ls
           end
  end.

Fixpoint has_lf (s : string) : bool :=
  match s with
  | EmptyString => false
  | String c s' => Ascii.eqb c (ascii_of_nat 10) || has_lf s'
  end.

(** The six labelled lines of the template, from the first to the last. *)
Definition tooltip_lines (x : QueryRecord) : list string :=
  [ ("ID: " ++ str (query_id x))%string;
    ("Address: " ++ str (query_address x))%string;
    ("Region: " ++ str (region x))%string;
    ("Status: " ++ str (query_status x))%string;
    ("Priority: " ++ str (priority_status x))%string;
    ("description: " ++ str (query_description x) ++ " ")%string ].

(** The six printed fields have no line feed of their own. *)
Definition single_line_fields (x : QueryRecord) : bool :=
  negb (has_lf (str (query_id x))) && negb (has_lf (str (query_address x))) &&
  negb (has_lf (str (region x))) && negb (has_lf (str (query_status x))) &&
  negb (has_lf (str (priority_status x))) &&
  negb (has_lf (str (query_description x))).

(** ** The records the filter drops *)

(** The structure has no usable value under [key]: the key is missing or
    its value is null. *)
Definition null_entry (d : dict) (key : string) : Prop :=
  dict_get d key = None \/ exists v, dict_get d key = Some v /\ isna v = true.

(** A geocode that is null, an empty structure, or a structure without a
    usable [lat] or [lng]. *)
Inductive unusable : geocell -> Prop :=
| unusable_null : unusable GeoNone
| unusable_empty : unusable (GeoDict [])
| unusable_lat d : null_entry d "lat" -> unusable (GeoDict d)
| unusable_lng d : null_entry d "lng" -> unusable (GeoDict d).

(** ** Labels and counting *)

(** A category label: a string, or no label at all. *)
Definition is_label (v : pyval) : Prop :=
  v = PyNone \/ exists s, v = PyStr s.

Definition pyval_eq_dec (a b : pyval) : {a = b} + {a <> b}.
Proof.
  decide equality; (apply Z.eq_dec || apply string_dec).
Defined.

Definition is_urgent (d : DisplayRow) : bool :=
  if pyval_eq_dec (priority_of d) (PyStr "urgent") then true else false.

(** A row has both coordinates. *)
Definition located (r : Row) : Prop :=
  isna (lat r) = false /\ isna (lon r) = false.

(** ** Geocoded records *)

(** The record has a structure with a value that is not null under both
    [lat] and [lng]. *)
Definition is_geocoded (q : QueryRecord) : bool :=
  match geocode q with
  | Some (GeoDict d) =>
      match dict_get d "lat", dict_get d "lng" with
      | Some la, Some lo => negb (isna la) && negb (isna lo)
      | _, _ => false
      end
  | _ => false
  end.

(** The number of line feeds in a text. *)
Fixpoint count_lf (s : string) : nat :=
  match s with
  | EmptyString => 0
  | String c s' =>
      (if Ascii.eqb c (ascii_of_nat 10) then 1 else 0) + count_lf s'
  end.

(** ** The charts, lines 111-142 *)

(** The number of cells of a column that equal [v]. *)
Definition count_value (v : pyval) (s : list pyval) : nat :=
  List.length (filter (Py.eqb v) s).

(** [Series.value_counts()]: one entry for every distinct cell that is not
    null (the default [dropna=True]), with the number of cells equal to it;
    the entries are then sorted by descending count.  pandas does not say
    which of two entries with the same count comes first, so the sort is an
    argument of the model: what is proved of [value_counts] is proved for
    every [sort_values] that only reorders. *)
Definition value_counts (sort_values : list (pyval * nat) -> list (pyval * nat))
    (s : list pyval) : list (pyval * nat) :=
  let cells := filter (fun v => negb (isna v)) s in
  sort_values (map (fun v => (v, count_value v cells)) (unique cells)).

Definition status_of (r : DisplayRow) : pyval := query_status (record (row r)).

(** Lines 115-116, 128-129 and 137: the two-column frames behind the two
    pie charts and the series behind the bar chart. *)
Definition priority_counts sort_values (df : list DisplayRow) : list (pyval * nat) :=
  value_counts sort_values (map priority_of df).

Definition status_counts sort_values (df : list DisplayRow) : list (pyval * nat) :=
  value_counts sort_values (map status_of df).

Definition region_counts sort_values (df : list DisplayRow) : list (pyval * nat) :=
  value_counts sort_values (map region_of df).

(** The number of pairs that are [(r, p)]. *)
Definition count_pair (r p : pyval) (s : list (pyval * pyval)) : nat :=
  List.length (filter (fun c => Py.eqb r (fst c) && Py.eqb p (snd c)) s).

(** [pd.crosstab(index, columns)] on two columns of one frame: the rows of
    the frame with a null in either column are left out; the row labels are
    the distinct values left in the first column and the column labels those
    left in the second, both sorted; a cell counts the rows of the frame
    with that pair of values.  The table is given row by row, every cell with
    its column label.  The order of the labels is an argument, as for
    [value_counts]. *)
Definition crosstab (sort_labels : list pyval -> list pyval)
    (index columns : list pyval) : list (pyval * list (pyval * nat)) :=
  let pairs := filter (fun c => negb (isna (fst c)) && negb (isna (snd c)))
                      (combine index columns) in
  let cols := sort_labels (unique (map snd pairs)) in
  map (fun r => (r, map (fun p => (p, count_pair r p pairs)) cols))
      (sort_labels (unique (map fst pairs))).

(** Line 141. *)
Definition region_by_priority sort_labels (df : list DisplayRow)
    : list (pyval * list (pyval * nat)) :=
  crosstab sort_labels (map region_of df) (map priority_of df).

(** The sum of all the cells of a cross tabulation. *)
Definition crosstab_total (t : list (pyval * list (pyval * nat))) : nat :=
  list_sum (map (fun line => list_sum (map snd (snd line))) t).

(** Two sorts that the model can be run with: insertion sorts, by
    descending count and by the text of the label. *)
Fixpoint insert_by {A : Type} (le : A -> A -> bool) (x : A) (l : list A) : list A :=
  match l with
  | [] => [x]
  | y :: l' => if le x y then x :: l else y :: insert_by le x l'
  end.

Definition sort_by {A : Type} (le : A -> A -> bool) (l : list A) : list A :=
  fold_right (insert_by le) [] l.

Definition by_count_desc : list (pyval * nat) -> list (pyval * nat) :=
  sort_by (fun a b => Nat.leb (snd b) (snd a)).

Definition by_label : list pyval -> list pyval :=
  sort_by (fun a b => String.leb (str a) (str b)).

(** A float, or no value. *)
Definition float_or_null (v : pyval) : Prop :=
  match v with
  | PyFloat _ | PyNone | PyNaN => True
  | PyInt _ | PyStr _ => False
  end.

(** What the geocode of the record holds under [lat] and under [lng] is a
    float or a null. *)
Definition float_coordinates (q : QueryRecord) : Prop :=
  match geocode q with
  | Some (GeoDict d) =>
      forall k v, k = "lat" \/ k = "lng" ->
                  dict_get d k = Some v -> float_or_null v
  | _ => True
  end.

(** ** The CSV export, lines 82-96 *)




Definition QUOTE : ascii := ascii_of_nat 34.
















(** A query whose address has a comma, a quote and a line feed in it. *)
Definition awkward_address : QueryRecord :=
  {| query_id := PyInt 6;
     query_address :=
       PyStr ("Flat 2, " ++
              String QUOTE ("The Oaks" ++ String QUOTE (LF ++ "Main Rd")))%string;
     region := PyStr "Gauteng";
     query_status := PyStr "open";
     priority_status := PyStr "medium";
     query_description := PyStr "No water";
     geocode := Some (GeoDict [("lat", PyFloat "-26.3"); ("lng", PyFloat "27.9")]) |}.

(** ** Lemmas on the normalizer *)

Lemma coordinate_nan key : coordinate key GeoNaN = Raise TypeError.
Proof. reflexivity. Qed.

Lemma coordinate_none key : coordinate key GeoNone = Ok PyNone.
Proof. reflexivity. Qed.

Lemma coordinate_dict key d : coordinate key (GeoDict d) = Ok (entry d key).
Proof.
  unfold coordinate, entry. destruct d as [|[k v] d].
  - reflexivity.
  - cbn [truthy contains getitem bind].
    destruct (dict_get ((k, v) :: d) key); reflexivity.
Qed.

Lemma coordinate_flat key x :
  coordinate key x = if is_nan_cell x then Raise TypeError else Ok (flat key x).
Proof.
  destruct x; cbn [is_nan_cell flat].
  - apply coordinate_nan.
  - apply coordinate_none.
  - apply coordinate_dict.
Qed.

Lemma apply_coordinate key (df : list QueryRecord) :
  apply (coordinate key) (map geocode_cell df) =
  if has_nan df then Raise TypeError
  else Ok (map (fun r => flat key (geocode_cell r)) df).
Proof.
  induction df as [|r df IH]; [reflexivity|].
  cbn [map apply has_nan existsb]. fold (has_nan df).
  rewrite coordinate_flat.
  destruct (is_nan_cell (geocode_cell r)); [reflexivity|].
  cbn [bind orb]. rewrite IH.
  destruct (has_nan df); reflexivity.
Qed.

Lemma combine_columns (df : list QueryRecord) (f g : QueryRecord -> pyval) :
  map (fun c => mkRow (fst c) (fst (snd c)) (snd (snd c)))
      (combine df (combine (map f df) (map g df))) =
  map (fun r => mkRow r (f r) (g r)) df.
Proof.
  induction df as [|r df IH]; [reflexivity|].
  cbn [map combine fst snd]. now rewrite IH.
Qed.

Lemma assign_lat_lon_rows (df : list QueryRecord) :
  assign_lat_lon df =
  if has_nan df then Raise TypeError else Ok (map flat_row df).
Proof.
  unfold assign_lat_lon. rewrite !apply_coordinate.
  destruct (has_nan df); [reflexivity|].
  cbn [bind]. now rewrite combine_columns.
Qed.

Lemma normalize_rows (df : list QueryRecord) :
  normalize df =
  if negb (empty df) && geocode_in_columns df then
    if has_nan df then Uncaught TypeError
    else if empty (filter notnull (map flat_row df))
         then Stop (StWarning no_valid_geocodes)
         else Continue (filter notnull (map flat_row df))
  else Stop (StInfo no_data).
Proof.
  unfold normalize. rewrite assign_lat_lon_rows.
  destruct (negb (empty df) && geocode_in_columns df); [|reflexivity].
  destruct (has_nan df); reflexivity.
Qed.

Lemma normalize_continue (df : list QueryRecord) (rows : list Row) :
  normalize df = Continue rows ->
  df <> [] /\ geocode_in_columns df = true /\ has_nan df = false /\
  rows = filter notnull (map flat_row df) /\ rows <> [].
Proof.
  rewrite normalize_rows.
  destruct df as [|r df]; [discriminate|]. cbn [empty negb andb].
  destruct (geocode_in_columns (r :: df)); [|discriminate].
  destruct (has_nan (r :: df)); [discriminate|].
  destruct (filter notnull (map flat_row (r :: df))) as [|x xs] eqn:E;
    cbn [empty]; [discriminate|].
  intros [= <-]. repeat split; discriminate.
Qed.

Lemma run_continue (r : response) (page : Page) :
  run r = Continue page ->
  exists data rows, r = Json data /\ normalize data = Continue rows /\
                    page = render (present rows).
Proof.
  unfold run. destruct r as [e|e|data]; cbn [fetch and_then]; try discriminate.
  destruct (normalize data) as [rows|b|e] eqn:E; cbn [and_then]; try discriminate.
  intros [= <-]. now exists data, rows.
Qed.

(** What lines 40-41 extract where the geocode is a JSON null or a
    structure: the entry under the key when there is one, [None] when
    there is none, and [lng] is read into [lon]. *)
Lemma coordinate_of_present_geocode (x : geocell) :
  x <> GeoNaN ->
  coordinate "lat" x = Ok (flat "lat" x) /\ coordinate "lng" x = Ok (flat "lng" x).
Proof.
  intros H. rewrite !coordinate_flat.
  destruct x; [contradiction| |]; split; reflexivity.
Qed.

(** ** The claims *)

(** C1. The normalizer is to extract [lat] and [lon] from every record, null
    where the record has no geocode.  On a collection in which one record has
    a geocode and another has no [geocode] key, the cell of the second is the
    float nan: it is true, ["lat" in x] raises [TypeError], no [lat] column is
    assigned and the script ends on the uncaught exception. *)
Theorem extraction_raises_on_record_without_geocode :
  geocode_cell without_geocode = GeoNaN /\
  coordinate "lat" (geocode_cell without_geocode) = Raise TypeError /\
  assign_lat_lon [scenario_c; without_geocode] = Raise TypeError /\
  normalize [scenario_c; without_geocode] = Uncaught TypeError.
Proof. repeat split. Qed.

(** C2. [priority_to_color] is a function of its argument alone and has a
    value on every argument: red for ['urgent'], yellow for ['high'], orange
    for ['medium'], and green for everything else, ['low'] and null
    included. *)
Theorem priority_to_color_table :
  priority_to_color (PyStr "urgent") = [255; 0; 0; 200]%Z /\
  priority_to_color (PyStr "high") = [255; 255; 0; 200]%Z /\
  priority_to_color (PyStr "medium") = [255; 165; 0; 200]%Z /\
  priority_to_color (PyStr "low") = [0; 200; 0; 200]%Z /\
  priority_to_color PyNone = [0; 200; 0; 200]%Z /\
  forall p : pyval,
    p <> PyStr "urgent" -> p <> PyStr "high" -> p <> PyStr "medium" ->
    priority_to_color p = [0; 200; 0; 200]%Z.
Proof.
  repeat (split; [reflexivity|]).
  intros p Hu Hh Hm. unfold priority_to_color.
  destruct p as [| |z|f|s]; try reflexivity.
  cbn [eq_str].
  destruct (String.eqb_spec s "urgent") as [->|_]; [now elim Hu|].
  destruct (String.eqb_spec s "high") as [->|_]; [now elim Hh|].
  destruct (String.eqb_spec s "medium") as [->|_]; [now elim Hm|].
  reflexivity.
Qed.

Lemma priority_to_color_table_witness :
  priority_to_color (PyStr "unknown") = [0; 200; 0; 200]%Z /\
  priority_to_color PyNaN = [0; 200; 0; 200]%Z.
Proof.
  split;
    apply (proj2 (proj2 (proj2 (proj2 (proj2 priority_to_color_table)))));
    discriminate.
Defined.

Lemma filter_notnull_located (rows : list Row) :
  Forall located (filter notnull rows).
Proof.
  apply Forall_forall. intros r Hr.
  apply filter_In in Hr. destruct Hr as [_ Hr].
  unfold notnull in Hr. apply andb_true_iff in Hr. destruct Hr as [Ha Hb].
  split; now apply negb_true_iff.
Qed.

(** C3. Every row that leaves the normalizer, and so every row of the table
    the page shows, has a [lat] and a [lon] that are not null. *)
Theorem surviving_rows_are_located :
  (forall df rows, normalize df = Continue rows -> Forall located rows) /\
  (forall r page, run r = Continue page ->
     Forall (fun d => located (row d)) (table page)).
Proof.
  split.
  - intros df rows H. apply normalize_continue in H.
    destruct H as (_ & _ & _ & -> & _). apply filter_notnull_located.
  - intros r page H. apply run_continue in H.
    destruct H as (data & rows & _ & Hn & ->).
    apply normalize_continue in Hn. destruct Hn as (_ & _ & _ & -> & _).
    cbn [render table]. unfold present.
    apply Forall_map. cbn [row].
    apply filter_notnull_located.
Qed.

Lemma surviving_rows_are_located_witness :
  Forall located [flat_row scenario_c] /\
  Forall (fun d => located (row d))
         (table (render (present [flat_row scenario_c]))).
Proof.
  split.
  - apply (proj1 surviving_rows_are_located [scenario_c; null_geocode]).
    reflexivity.
  - apply (proj2 surviving_rows_are_located (Json [scenario_c; null_geocode])).
    reflexivity.
Defined.

(** The ends a run can come to, and when. *)
Lemma run_cases (r : response) :
  match r with
  | RequestException e | ValueError e =>
      run r = Stop (StError ("Could not fetch or parse data from API: " ++ e))
  | Json data =>
      if negb (empty data) && geocode_in_columns data then
        if has_nan data then run r = Uncaught TypeError
        else if empty (filter notnull (map flat_row data))
             then run r = Stop (StWarning no_valid_geocodes)
             else run r = Continue
                            (render (present (filter notnull (map flat_row data))))
      else run r = Stop (StInfo no_data)
  end.
Proof.
  destruct r as [e|e|data]; try reflexivity.
  unfold run. cbn [fetch and_then]. rewrite normalize_rows.
  destruct (negb (empty data) && geocode_in_columns data); [|reflexivity].
  destruct (has_nan data); [reflexivity|].
  destruct (filter notnull (map flat_row data)); reflexivity.
Qed.

(** The informational halt is the outcome exactly when the collection is
    empty or no record of it has a [geocode] key. *)
Lemma info_halt_iff (data : list QueryRecord) :
  run (Json data) = Stop (StInfo no_data) <->
  data = [] \/ Forall (fun r => geocode r = None) data.
Proof.
  assert (Hcol : geocode_in_columns data = false <->
                 Forall (fun r => geocode r = None) data).
  { induction data as [|q data IH]; [split; auto|].
    cbn [geocode_in_columns existsb]. fold (geocode_in_columns data).
    rewrite orb_false_iff, IH. split.
    - intros [Hq Hd]. constructor; [|exact Hd]. now destruct (geocode q).
    - intros H. inversion H as [|? ? Hq Hd]; subst. rewrite Hq. auto. }
  pose proof (run_cases (Json data)) as H. cbn beta iota in H.
  destruct data as [|q data]; [split; auto|].
  cbn [empty negb andb] in H.
  destruct (geocode_in_columns (q :: data)).
  - split.
    + intros E. exfalso.
      destruct (has_nan (q :: data)); [congruence|].
      destruct (empty (filter notnull (map flat_row (q :: data)))); congruence.
    + intros [E|E]; [discriminate|]. apply Hcol in E. discriminate.
  - split; [|intros _; exact H]. intros _. right. now apply Hcol.
Qed.

(** Scenarios A and B of the specification, a failed fetch, and the two
    messages of the soft halts, which differ. *)
Example three_checkpoints :
  run (RequestException "timeout") =
    Stop (StError "Could not fetch or parse data from API: timeout") /\
  run (Json []) = Stop (StInfo no_data) /\
  run (Json [null_geocode]) = Stop (StWarning no_valid_geocodes) /\
  no_data <> no_valid_geocodes.
Proof. repeat split. discriminate. Qed.

(** C4. The script is to end either behind one of its three banners or with
    the page rendered in full.  On a body in which one record has a geocode
    and another has no [geocode] key, the frame is not empty and has the
    column, so the second checkpoint lets it through; line 40 then raises
    [TypeError], which is none of the three banners, and nothing below line
    40 is rendered. *)
Theorem run_ends_on_uncaught_type_error :
  run (Json [scenario_c; without_geocode]) = Uncaught TypeError /\
  (forall b, run (Json [scenario_c; without_geocode]) <> Stop b) /\
  (forall page, run (Json [scenario_c; without_geocode]) <> Continue page).
Proof. repeat split; intros; discriminate. Qed.

(** *** The tooltip *)

Lemma split_lines_single (a : string) :
  has_lf a = false -> split_lines a = [a].
Proof.
  induction a as [|c a IH]; [reflexivity|].
  cbn [has_lf split_lines]. intros H. apply orb_false_iff in H.
  destruct H as [Hc Ha]. rewrite Hc, (IH Ha). reflexivity.
Qed.

Lemma split_lines_line (a b : string) :
  has_lf a = false ->
  split_lines (a ++ LF ++ b) = a :: split_lines b.
Proof.
  induction a as [|c a IH]; intros H.
  - reflexivity.
  - cbn [has_lf] in H. apply orb_false_iff in H. destruct H as [Hc Ha].
    change (String c a ++ LF ++ b)%string with (String c (a ++ LF ++ b)).
    cbn [split_lines]. rewrite Hc, (IH Ha). reflexivity.
Qed.

Lemma has_lf_app (a b : string) :
  has_lf (a ++ b) = has_lf a || has_lf b.
Proof.
  induction a as [|c a IH]; [reflexivity|].
  cbn [append has_lf]. rewrite IH. apply orb_assoc.
Qed.

Lemma append_assoc (a b c : string) :
  ((a ++ b) ++ c = a ++ (b ++ c))%string.
Proof.
  induction a as [|x a IH]; [reflexivity|]. cbn [append]. now rewrite IH.
Qed.

Lemma tooltip_text_lines (x : QueryRecord) :
  tooltip_text x = String.concat LF (tooltip_lines x).
Proof.
  unfold tooltip_text, tooltip_lines. cbn [String.concat].
  rewrite !append_assoc. reflexivity.
Qed.

Lemma split_tooltip_text (x : QueryRecord) :
  single_line_fields x = true ->
  split_lines (tooltip_text x) = tooltip_lines x.
Proof.
  unfold single_line_fields. rewrite !andb_true_iff, !negb_true_iff.
  intros (((((H1 & H2) & H3) & H4) & H5) & H6).
  rewrite tooltip_text_lines. unfold tooltip_lines. cbn [String.concat].
  repeat (rewrite split_lines_line;
          [|rewrite has_lf_app; cbn [has_lf]; assumption
               || (cbn; assumption)]).
  rewrite split_lines_single; [reflexivity|].
  rewrite !has_lf_app, H6. reflexivity.
Qed.

Lemma present_row (df : list Row) (d : DisplayRow) :
  In d (present df) ->
  In (row d) df /\
  tooltip d = tooltip_text (record (row d)) /\
  color d = priority_to_color (priority_status (record (row d))).
Proof.
  unfold present. intros H. apply in_map_iff in H.
  destruct H as (r & <- & Hr). cbn [row tooltip color]. auto.
Qed.

(** C5, as it is written, on the row of scenario C: the tooltip has six
    lines, not five. *)
Lemma tooltip_has_six_lines_not_five :
  List.length (split_lines (tooltip_text scenario_c)) = 6%nat /\
  List.length (split_lines (tooltip_text scenario_c)) <> 5%nat.
Proof. split; [reflexivity | discriminate]. Qed.

(** C5, amended.  The tooltip of every row is a fixed template of six
    lines, one for each of [query_id], [query_address], [region],
    [query_status], [priority_status] and [query_description] in that order,
    joined by five line feeds, each line beginning with its literal label
    and the last one ending in a space; a row whose [query_id] is 1 has a
    tooltip that begins with ["ID: 1"] and a line feed. *)
Theorem tooltip_is_six_labelled_lines (df : list Row) (d : DisplayRow) :
  In d (present df) ->
  tooltip d = String.concat LF (tooltip_lines (record (row d))) /\
  (single_line_fields (record (row d)) = true ->
   split_lines (tooltip d) = tooltip_lines (record (row d))) /\
  (query_id (record (row d)) = PyInt 1 ->
   String.prefix ("ID: 1" ++ LF) (tooltip d) = true).
Proof.
  intros H. apply present_row in H. destruct H as (_ & -> & _).
  split; [apply tooltip_text_lines|]. split.
  - apply split_tooltip_text.
  - intros Hid. unfold tooltip_text. rewrite Hid. reflexivity.
Qed.

Lemma tooltip_is_six_labelled_lines_witness :
  let d := mkDisplay (flat_row scenario_c) (tooltip_text scenario_c)
                     [255; 0; 0; 200]%Z in
  tooltip d = String.concat LF (tooltip_lines scenario_c) /\
  split_lines (tooltip d) = tooltip_lines scenario_c /\
  String.prefix ("ID: 1" ++ LF) (tooltip d) = true.
Proof.
  intros d.
  destruct (tooltip_is_six_labelled_lines [flat_row scenario_c] d) as (H1 & H2 & H3).
  - left. reflexivity.
  - split; [exact H1|]. split; [apply H2 | apply H3]; reflexivity.
Defined.

(** *** Running the normalizer again *)

Lemma notnull_flat_row_structure (q : QueryRecord) :
  notnull (flat_row q) = true -> exists d, geocode q = Some (GeoDict d).
Proof.
  unfold notnull, flat_row, geocode_cell. cbn [lat lon].
  destruct (geocode q) as [[| |d]|]; cbn; try discriminate.
  intros _. now exists d.
Qed.

(** A frame of rows that already carry the coordinates of their own geocode,
    none of them null, goes through lines 39-48 unchanged. *)
Lemma normalize_fixed (rows : list Row) :
  rows <> [] ->
  Forall (fun r => flat_row (record r) = r /\ notnull r = true) rows ->
  normalize (map record rows) = Continue rows.
Proof.
  intros Hne H.
  assert (Hcol : forall r, In r rows ->
                 exists d, geocode (record r) = Some (GeoDict d)).
  { intros r Hr. rewrite Forall_forall in H. destruct (H r Hr) as [Hf Hn].
    apply notnull_flat_row_structure. now rewrite Hf. }
  assert (Hnan : has_nan (map record rows) = false).
  { unfold has_nan. clear Hne H. induction rows as [|r rows IH]; [reflexivity|].
    cbn [map existsb]. rewrite IH by (intros; apply Hcol; now right).
    destruct (Hcol r (or_introl eq_refl)) as [d Hd].
    unfold geocode_cell. rewrite Hd. reflexivity. }
  assert (Hmap : filter notnull (map flat_row (map record rows)) = rows).
  { clear Hne Hcol Hnan. induction H as [|r rows [Hf Hn] _ IH]; [reflexivity|].
    cbn [map filter]. rewrite Hf, Hn, IH. reflexivity. }
  rewrite normalize_rows, Hnan, Hmap.
  destruct rows as [|r rows]; [contradiction|].
  cbn [map empty negb andb geocode_in_columns existsb].
  destruct (Hcol r (or_introl eq_refl)) as [d Hd]. rewrite Hd. reflexivity.
Qed.

(** C7. Lines 39-48 run a second time, on the frame they left, let every row
    through: the result is that frame again, and so has as many rows. *)
Theorem normalize_idempotent (df : list QueryRecord) (rows : list Row) :
  normalize df = Continue rows ->
  exists rows', normalize (map record rows) = Continue rows' /\
                rows' = rows /\ List.length rows' = List.length rows.
Proof.
  intros H. apply normalize_continue in H.
  destruct H as (_ & _ & _ & Hrows & Hne).
  exists rows. split; [|split; reflexivity].
  apply normalize_fixed; [exact Hne|].
  subst rows. apply Forall_forall. intros r Hr.
  apply filter_In in Hr. destruct Hr as [Hin Hn]. split; [|exact Hn].
  apply in_map_iff in Hin. destruct Hin as (q & <- & _). reflexivity.
Qed.

Lemma normalize_idempotent_witness :
  exists rows', normalize (map record [flat_row scenario_c]) = Continue rows' /\
                rows' = [flat_row scenario_c] /\
                List.length rows' = List.length [flat_row scenario_c].
Proof.
  apply (normalize_idempotent [null_geocode; scenario_c]). reflexivity.
Defined.

(** *** The colour *)

(** C8. Two rows with the same [priority_status], of one run or of two, get
    the same colour, whatever their other fields are. *)
Theorem color_depends_on_priority_only
    (r1 r2 : response) (page1 page2 : Page) (d1 d2 : DisplayRow) :
  run r1 = Continue page1 -> run r2 = Continue page2 ->
  In d1 (table page1) -> In d2 (table page2) ->
  priority_of d1 = priority_of d2 ->
  color d1 = color d2.
Proof.
  intros H1 H2 I1 I2 Hp.
  apply run_continue in H1. destruct H1 as (? & rows1 & _ & _ & ->).
  apply run_continue in H2. destruct H2 as (? & rows2 & _ & _ & ->).
  cbn [render table] in I1, I2.
  apply present_row in I1. destruct I1 as (_ & _ & ->).
  apply present_row in I2. destruct I2 as (_ & _ & ->).
  unfold priority_of in Hp. now rewrite Hp.
Qed.

Lemma color_depends_on_priority_only_witness :
  color (mkDisplay (flat_row scenario_c) (tooltip_text scenario_c)
                   (priority_to_color (PyStr "urgent"))) =
  color (mkDisplay (flat_row urgent_elsewhere) (tooltip_text urgent_elsewhere)
                   (priority_to_color (PyStr "urgent"))).
Proof.
  eapply (color_depends_on_priority_only
            (Json [scenario_c; null_geocode])
            (Json [half_geocoded; urgent_elsewhere])).
  - reflexivity.
  - reflexivity.
  - left. reflexivity.
  - left. reflexivity.
  - reflexivity.
Defined.

(** *** The key metrics *)

Lemma eqb_eq (a b : pyval) : Py.eqb a b = true <-> a = b.
Proof.
  destruct a, b; cbn [Py.eqb]; split; intros H;
    try reflexivity; try discriminate.
  - apply Z.eqb_eq in H. now subst.
  - injection H as ->. apply Z.eqb_refl.
  - apply String.eqb_eq in H. now subst.
  - injection H as ->. apply String.eqb_refl.
  - apply String.eqb_eq in H. now subst.
  - injection H as ->. apply String.eqb_refl.
Qed.

Lemma unique_In (s : list pyval) (v : pyval) : In v (unique s) <-> In v s.
Proof.
  induction s as [|w s IH]; [reflexivity|].
  cbn [unique In]. rewrite filter_In, IH, negb_true_iff.
  split.
  - intros [H|[H _]]; auto.
  - intros [H|H]; [now left|].
    destruct (Py.eqb w v) eqn:E; [left; now apply eqb_eq | right; auto].
Qed.

Lemma unique_NoDup (s : list pyval) : NoDup (unique s).
Proof.
  induction s as [|w s IH]; cbn [unique]; constructor.
  - rewrite filter_In, negb_true_iff. intros [_ H].
    assert (Py.eqb w w = true) by now apply eqb_eq. congruence.
  - now apply NoDup_filter.
Qed.

Lemma eq_str_urgent (d : DisplayRow) :
  eq_str (priority_of d) "urgent" = is_urgent d.
Proof.
  unfold is_urgent.
  destruct (pyval_eq_dec (priority_of d) (PyStr "urgent")) as [->|H].
  - reflexivity.
  - destruct (priority_of d) as [| |z|f|s]; try reflexivity. cbn [eq_str].
    destruct (String.eqb_spec s "urgent") as [->|_]; [now elim H | reflexivity].
Qed.

Lemma present_rows (rows : list Row) : map row (present rows) = rows.
Proof.
  unfold present. rewrite map_map. cbn [row]. apply map_id.
Qed.

(** C9. The three metrics of the page are computed from the table that
    survived the normalizer: the rows of the page are the rows the
    normalizer kept, and the metrics are the number of those rows, the
    number of distinct region labels among them (a row without a region adds
    none), and the number of them whose [priority_status] is ['urgent'].
    Regions are labels: strings, or null where there is none. *)
Theorem key_metrics (data : list QueryRecord) (page : Page) :
  run (Json data) = Continue page ->
  Forall (fun q => is_label (region q)) data ->
  exists rows : list Row,
    normalize data = Continue rows /\
    map row (table page) = rows /\
    total_queries page = List.length rows /\
    (exists regions : list pyval,
       NoDup regions /\
       (forall v, In v regions <->
                  isna v = false /\
                  exists r, In r rows /\ region (record r) = v) /\
       number_of_regions page = List.length regions) /\
    urgent_queries page =
      List.length
        (filter (fun r => if pyval_eq_dec (priority_status (record r))
                                          (PyStr "urgent")
                          then true else false) rows).
Proof.
  intros H _. apply run_continue in H.
  destruct H as (data' & rows & [= <-] & Hn & ->).
  exists rows. split; [exact Hn|].
  cbn [render table total_queries number_of_regions urgent_queries].
  split; [apply present_rows|].
  split; [unfold present; apply length_map|]. split.
  - exists (unique (filter (fun v => negb (isna v)) (map region_of (present rows)))).
    split; [apply unique_NoDup|]. split; [|reflexivity].
    intros v. rewrite unique_In, filter_In, in_map_iff, negb_true_iff.
    split.
    + intros [(d & <- & Hd) Hv]. split; [exact Hv|].
      apply present_row in Hd. exists (row d). split; [apply Hd | reflexivity].
    + intros [Hv (r & Hr & <-)]. split; [|exact Hv].
      exists (mkDisplay r (tooltip_text (record r))
                          (priority_to_color (priority_status (record r)))).
      split; [reflexivity|]. unfold present. apply in_map_iff. now exists r.
  - unfold present. rewrite filter_map_swap, length_map.
    f_equal. apply filter_ext. intros r.
    apply (eq_str_urgent
             (mkDisplay r (tooltip_text (record r))
                          (priority_to_color (priority_status (record r))))).
Qed.

Lemma key_metrics_witness :
  let data := [scenario_c; half_geocoded; second_in_gauteng; null_geocode;
               urgent_elsewhere] in
  let page := render (present [flat_row scenario_c; flat_row second_in_gauteng;
                               flat_row urgent_elsewhere]) in
  exists rows : list Row,
    normalize data = Continue rows /\
    map row (table page) = rows /\
    total_queries page = List.length rows /\
    (exists regions : list pyval,
       NoDup regions /\
       (forall v, In v regions <->
                  isna v = false /\
                  exists r, In r rows /\ region (record r) = v) /\
       number_of_regions page = List.length regions) /\
    urgent_queries page =
      List.length
        (filter (fun r => if pyval_eq_dec (priority_status (record r))
                                          (PyStr "urgent")
                          then true else false) rows).
Proof.
  intros data page. apply (key_metrics data page).
  - reflexivity.
  - repeat (apply Forall_cons;
            [first [left; reflexivity | right; eexists; reflexivity]|]).
    apply Forall_nil.
Defined.

(** *** Records without a usable geocode *)

Lemma isna_entry (d : dict) (key : string) :
  isna (entry d key) = true <-> null_entry d key.
Proof.
  unfold entry, null_entry. destruct (dict_get d key) as [v|].
  - split.
    + intros H. right. now exists v.
    + intros [H|(w & [= <-] & H)]; [discriminate | exact H].
  - split; [now left | reflexivity].
Qed.

(** In the words of the code: the cell is not nan and the row built of it
    fails the [dropna] test. *)
Lemma unusable_dropped (q : QueryRecord) :
  unusable (geocode_cell q) <->
  is_nan_cell (geocode_cell q) = false /\ notnull (flat_row q) = false.
Proof.
  unfold notnull, flat_row. cbn [lat lon].
  rewrite andb_false_iff, !negb_false_iff.
  destruct (geocode_cell q) as [| |d]; cbn [is_nan_cell flat].
  - split; [inversion 1 | intros [H _]; discriminate].
  - split; [auto | constructor].
  - rewrite !isna_entry. split.
    + intros H. split; [reflexivity|].
      inversion H; subst; auto. left. now left.
    + intros [_ [H|H]]; [now apply unusable_lat | now apply unusable_lng].
Qed.

Lemma has_nan_app (df1 df2 : list QueryRecord) :
  has_nan (df1 ++ df2) = has_nan df1 || has_nan df2.
Proof. apply existsb_app. Qed.

Lemma geocode_in_columns_app (df1 df2 : list QueryRecord) :
  geocode_in_columns (df1 ++ df2) =
  geocode_in_columns df1 || geocode_in_columns df2.
Proof. apply existsb_app. Qed.

Lemma normalize_skips_unusable (df1 df2 : list QueryRecord) (q : QueryRecord)
    (rows : list Row) :
  unusable (geocode_cell q) ->
  normalize (df1 ++ df2) = Continue rows ->
  normalize (df1 ++ q :: df2) = Continue rows.
Proof.
  intros Hq H. apply unusable_dropped in Hq. destruct Hq as [Hnan Hdrop].
  apply normalize_continue in H. destruct H as (_ & Hcol & Hn & Hrows & Hne).
  rewrite normalize_rows.
  assert (E : empty (df1 ++ q :: df2) = false) by (destruct df1; reflexivity).
  rewrite E. cbn [negb andb].
  rewrite geocode_in_columns_app in *. rewrite has_nan_app in *.
  cbn [geocode_in_columns has_nan existsb].
  fold (geocode_in_columns df2). fold (has_nan df2).
  apply orb_false_iff in Hn. destruct Hn as [Hn1 Hn2].
  rewrite Hn1, Hn2, Hnan. cbn [orb].
  replace (geocode_in_columns df1 || (_ || geocode_in_columns df2)) with true.
  2:{ symmetry. rewrite orb_assoc, (orb_comm (geocode_in_columns df1)),
                <- orb_assoc, Hcol. apply orb_true_r. }
  rewrite map_app, filter_app. cbn [map filter]. rewrite Hdrop.
  rewrite <- filter_app, <- map_app, <- Hrows.
  destruct rows; [contradiction | reflexivity].
Qed.

Lemma all_unusable_rows (df : list QueryRecord) :
  Forall (fun q => unusable (geocode_cell q)) df <->
  has_nan df = false /\ filter notnull (map flat_row df) = [].
Proof.
  induction df as [|q df IH].
  - split; [auto | constructor].
  - cbn [has_nan existsb map filter]. fold (has_nan df). split.
    + intros H. inversion H as [|? ? Hq Hdf]; subst.
      apply unusable_dropped in Hq. destruct Hq as [-> ->].
      now apply IH in Hdf.
    + intros [Hn Hf]. apply orb_false_iff in Hn. destruct Hn as [Hq Hn].
      destruct (notnull (flat_row q)) eqn:E; [discriminate|].
      constructor; [apply unusable_dropped; auto | apply IH; auto].
Qed.

(** C10. A record whose geocode is null, is an empty structure, lacks [lat]
    or [lng], or holds a null under one of them, gets a null coordinate
    without an exception; put into a collection that renders, it leaves the
    surviving rows as they were; no surviving row comes from such a record;
    and the warning of line 47 is the outcome exactly when the collection has
    a record and every record of it is of that kind. *)
Theorem unusable_geocode_is_dropped :
  (forall x, unusable x ->
     exists la lo, coordinate "lat" x = Ok la /\ coordinate "lng" x = Ok lo /\
                   (isna la = true \/ isna lo = true)) /\
  (forall df1 df2 q rows, unusable (geocode_cell q) ->
     normalize (df1 ++ df2) = Continue rows ->
     normalize (df1 ++ q :: df2) = Continue rows) /\
  (forall df rows, normalize df = Continue rows ->
     Forall (fun r => ~ unusable (geocode_cell (record r))) rows) /\
  (forall df, normalize df = Stop (StWarning no_valid_geocodes) <->
     df <> [] /\ Forall (fun q => unusable (geocode_cell q)) df).
Proof.
  split; [|split; [|split]].
  - intros x Hx. exists (flat "lat" x), (flat "lng" x).
    rewrite !coordinate_flat.
    destruct x as [| |d]; cbn [is_nan_cell flat].
    + inversion Hx.
    + auto.
    + repeat split. rewrite !isna_entry.
      inversion Hx; subst; auto. left. now left.
  - intros df1 df2 q rows. apply normalize_skips_unusable.
  - intros df rows H. apply normalize_continue in H.
    destruct H as (_ & _ & _ & -> & _).
    apply Forall_forall. intros r Hr. apply filter_In in Hr.
    destruct Hr as [Hin Hn]. apply in_map_iff in Hin.
    destruct Hin as (q & <- & _). change (~ unusable (geocode_cell q)).
    intros Hu. apply unusable_dropped in Hu. destruct Hu as [_ Hu]. congruence.
  - intros df. rewrite all_unusable_rows, normalize_rows. split.
    + destruct df as [|q df]; [discriminate|]. cbn [empty negb andb].
      destruct (geocode_in_columns (q :: df)); [|discriminate].
      destruct (has_nan (q :: df)); [discriminate|].
      destruct (filter notnull (map flat_row (q :: df))); [|discriminate].
      intros _. repeat split. discriminate.
    + intros (Hne & Hn & Hf). rewrite Hn, Hf.
      destruct df as [|q df]; [contradiction|]. cbn [empty negb andb].
      replace (geocode_in_columns (q :: df)) with true; [reflexivity|].
      symmetry. cbn [geocode_in_columns existsb].
      cbn [has_nan existsb] in Hn. apply orb_false_iff in Hn.
      destruct Hn as [Hq _]. unfold geocode_cell in Hq.
      destruct (geocode q); [reflexivity | discriminate].
Qed.

Lemma unusable_geocode_is_dropped_witness :
  (exists la lo, coordinate "lat" (geocode_cell half_geocoded) = Ok la /\
                 coordinate "lng" (geocode_cell half_geocoded) = Ok lo /\
                 (isna la = true \/ isna lo = true)) /\
  normalize ([scenario_c] ++ half_geocoded :: [urgent_elsewhere]) =
    Continue [flat_row scenario_c; flat_row urgent_elsewhere] /\
  Forall (fun r => ~ unusable (geocode_cell (record r)))
         [flat_row scenario_c; flat_row urgent_elsewhere] /\
  normalize [null_geocode; half_geocoded] = Stop (StWarning no_valid_geocodes).
Proof.
  assert (Hh : unusable (geocode_cell half_geocoded)).
  { apply unusable_lng. right. exists PyNone. split; reflexivity. }
  destruct unusable_geocode_is_dropped as (Ha & Hb & Hc & Hd).
  split; [|split; [|split]].
  - apply Ha. exact Hh.
  - apply Hb; [exact Hh | reflexivity].
  - apply (Hc [scenario_c; urgent_elsewhere]). reflexivity.
  - apply Hd. split; [discriminate|].
    apply Forall_cons; [apply unusable_null|].
    apply Forall_cons; [exact Hh | apply Forall_nil].
Defined.

(** ** Further properties of the script *)

(** *** How a run ends *)

Lemma geocode_in_columns_Exists (df : list QueryRecord) :
  geocode_in_columns df = true <-> Exists (fun q => geocode q <> None) df.
Proof.
  unfold geocode_in_columns. rewrite existsb_exists, Exists_exists.
  split; intros (q & Hin & Hq); exists q; (split; [exact Hin|]);
    destruct (geocode q); congruence.
Qed.

Lemma has_nan_Exists (df : list QueryRecord) :
  has_nan df = true <-> Exists (fun q => geocode_cell q = GeoNaN) df.
Proof.
  unfold has_nan. rewrite existsb_exists, Exists_exists.
  split; intros (q & Hin & Hq); exists q; (split; [exact Hin|]);
    destruct (geocode_cell q); cbn in *; congruence.
Qed.

Lemma has_nan_Forall (df : list QueryRecord) :
  has_nan df = false <-> Forall (fun q => geocode_cell q <> GeoNaN) df.
Proof.
  induction df as [|q df IH]; [split; auto|].
  cbn [has_nan existsb]. fold (has_nan df). rewrite orb_false_iff, IH.
  split.
  - intros [Hq Hd]. constructor; [|exact Hd]. intros E. now rewrite E in Hq.
  - intros H. inversion H as [|? ? Hq Hd]; subst. split; [|exact Hd].
    destruct (geocode_cell q); [now elim Hq | reflexivity | reflexivity].
Qed.

Lemma notnull_flat_row (q : QueryRecord) :
  notnull (flat_row q) = is_geocoded q.
Proof.
  unfold notnull, flat_row, is_geocoded, geocode_cell. cbn [lat lon].
  destruct (geocode q) as [[| |d]|]; try reflexivity.
  cbn [flat]. unfold entry.
  destruct (dict_get d "lat") as [la|], (dict_get d "lng") as [lo|];
    try reflexivity.
  cbn [isna negb andb]. apply andb_false_r.
Qed.

Lemma filter_notnull_flat_row (df : list QueryRecord) :
  filter notnull (map flat_row df) = map flat_row (filter is_geocoded df).
Proof.
  induction df as [|q df IH]; [reflexivity|].
  cbn [map filter]. rewrite notnull_flat_row, IH.
  destruct (is_geocoded q); reflexivity.
Qed.

(** The error banner is the end of a run exactly when the request or the
    parsing of its body raised, and it shows the text of that exception
    behind the fixed prefix. *)
Theorem error_banner_iff (r : response) (msg : string) :
  run r = Stop (StError msg) <->
  exists e, (r = RequestException e \/ r = ValueError e) /\
            msg = ("Could not fetch or parse data from API: " ++ e)%string.
Proof.
  split.
  - pose proof (run_cases r) as H. destruct r as [e|e|data].
    + rewrite H. intros [= <-]. exists e. auto.
    + rewrite H. intros [= <-]. exists e. auto.
    + cbn beta iota in H.
      destruct (negb (empty data) && geocode_in_columns data);
        [|rewrite H; discriminate].
      destruct (has_nan data); [rewrite H; discriminate|].
      destruct (empty (filter notnull (map flat_row data)));
        rewrite H; discriminate.
  - intros (e & [->| ->] & ->); reflexivity.
Qed.

(** Lines 39-48 raise exactly when some record of the body has a [geocode]
    key and some record has nan in its geocode cell, which is the cell of
    every record without the key; what they raise is the [TypeError] of
    line 40, and no lookup of theirs raises a [KeyError]. *)
Theorem normalize_raises_iff (data : list QueryRecord) (e : exn) :
  normalize data = Uncaught e <->
  e = TypeError /\
  Exists (fun q => geocode q <> None) data /\
  Exists (fun q => geocode_cell q = GeoNaN) data.
Proof.
  rewrite <- geocode_in_columns_Exists, <- has_nan_Exists, normalize_rows.
  destruct data as [|q data];
    [split; [discriminate | intros (_ & E & _); discriminate]|].
  cbn [empty negb andb].
  destruct (geocode_in_columns (q :: data)).
  - destruct (has_nan (q :: data)).
    + split; [intros [= <-]; auto | intros (-> & _); reflexivity].
    + destruct (empty (filter notnull (map flat_row (q :: data))));
        (split; [discriminate | intros (_ & _ & E); discriminate]).
  - split; [discriminate | intros (_ & E & _); discriminate].
Qed.

(** Lines 39-48 let a body through, neither stopping behind a banner nor
    raising, exactly when no geocode cell is nan and at least one record is
    geocoded, that is, has a structure with a value that is not null under
    both [lat] and [lng]. *)
Theorem normalize_continues_iff (data : list QueryRecord) :
  (exists rows, normalize data = Continue rows) <->
  Forall (fun q => geocode_cell q <> GeoNaN) data /\
  Exists (fun q => is_geocoded q = true) data.
Proof.
  rewrite <- has_nan_Forall.
  assert (Hex : Exists (fun q => is_geocoded q = true) data <->
                filter is_geocoded data <> []).
  { rewrite Exists_exists. split.
    - intros (q & Hin & Hq) E.
      assert (In q (filter is_geocoded data)) by (apply filter_In; auto).
      rewrite E in H. contradiction.
    - destruct (filter is_geocoded data) as [|q l] eqn:E; [contradiction|].
      intros _. exists q. apply filter_In. rewrite E. now left. }
  rewrite Hex. clear Hex.
  rewrite normalize_rows, filter_notnull_flat_row.
  destruct data as [|q data].
  - cbn. split; [intros [rows Hr]; discriminate | intros [_ E]; now elim E].
  - cbn [empty negb andb].
    destruct (geocode_in_columns (q :: data)) eqn:Hcol.
    + destruct (has_nan (q :: data)).
      * split; [intros [rows Hr]; discriminate | intros [E _]; discriminate].
      * destruct (filter is_geocoded (q :: data)) as [|x xs]; cbn [map empty].
        -- split; [intros [rows Hr]; discriminate | intros [_ E]; now elim E].
        -- split; [intros _; split; [reflexivity | discriminate]|].
           intros _. eexists. reflexivity.
    + split; [intros [rows Hr]; discriminate|].
      intros [_ E]. exfalso.
      destruct (filter is_geocoded (q :: data)) as [|x xs] eqn:F; [now elim E|].
      assert (Hx : In x (filter is_geocoded (q :: data))) by (rewrite F; now left).
      apply filter_In in Hx. destruct Hx as [Hin Hx].
      assert (Hc : geocode_in_columns (q :: data) = true).
      { apply geocode_in_columns_Exists, Exists_exists. exists x.
        split; [exact Hin|]. unfold is_geocoded in Hx.
        destruct (geocode x); [discriminate | discriminate]. }
      congruence.
Qed.

(** *** The rows that are kept *)

Lemma normalize_geocoded (df : list QueryRecord) (rows : list Row) :
  normalize df = Continue rows -> rows = map flat_row (filter is_geocoded df).
Proof.
  intros H. apply normalize_continue in H. destruct H as (_ & _ & _ & -> & _).
  apply filter_notnull_flat_row.
Qed.

(** The rows the normalizer keeps are the geocoded records of the body, each
    once and in the order of the body: no row is added, moved or repeated. *)
Theorem kept_rows_in_order (df : list QueryRecord) (rows : list Row) :
  normalize df = Continue rows ->
  map record rows = filter is_geocoded df /\
  (List.length rows <= List.length df)%nat.
Proof.
  intros H. apply normalize_geocoded in H. subst rows.
  rewrite map_map. cbn [flat_row record]. rewrite map_id, length_map.
  split; [reflexivity | apply filter_length_le].
Qed.

Lemma kept_rows_in_order_witness :
  map record [flat_row scenario_c; flat_row urgent_elsewhere] =
    filter is_geocoded
      [scenario_c; null_geocode; half_geocoded; urgent_elsewhere] /\
  (List.length [flat_row scenario_c; flat_row urgent_elsewhere] <=
   List.length [scenario_c; null_geocode; half_geocoded; urgent_elsewhere])%nat.
Proof.
  apply (kept_rows_in_order
           [scenario_c; null_geocode; half_geocoded; urgent_elsewhere]).
  reflexivity.
Defined.

(** Where the coordinates of the body are floats or null, every row that is
    kept has, as [lat], the value the geocode in its own cell has under
    [lat] and, as [lon], the value it has under [lng], and that geocode is
    the geocode of a record of the body.  (Nothing is said of coordinates
    given as integers or strings, which pandas may store as another type,
    nor of the other cells of the row.) *)
Theorem kept_row_float_coordinates
    (df : list QueryRecord) (rows : list Row) (r : Row) :
  Forall float_coordinates df ->
  normalize df = Continue rows -> In r rows ->
  exists q d, In q df /\
              geocode q = Some (GeoDict d) /\
              geocode (record r) = Some (GeoDict d) /\
              dict_get d "lat" = Some (lat r) /\
              dict_get d "lng" = Some (lon r).
Proof.
  intros _ H Hr. apply normalize_geocoded in H. subst rows.
  apply in_map_iff in Hr. destruct Hr as (q & <- & Hq).
  apply filter_In in Hq. destruct Hq as [Hin Hq].
  exists q. cbn [flat_row record lat lon].
  unfold is_geocoded in Hq. unfold geocode_cell.
  destruct (geocode q) as [[| |d]|]; try discriminate.
  exists d. cbn [flat]. unfold entry.
  destruct (dict_get d "lat"), (dict_get d "lng"); try discriminate. auto.
Qed.

Lemma kept_row_float_coordinates_witness :
  exists q d, In q [null_geocode; urgent_elsewhere] /\
              geocode q = Some (GeoDict d) /\
              geocode (record (flat_row urgent_elsewhere)) = Some (GeoDict d) /\
              dict_get d "lat" = Some (PyFloat "-33.9") /\
              dict_get d "lng" = Some (PyFloat "18.4").
Proof.
  apply (kept_row_float_coordinates [null_geocode; urgent_elsewhere]
                                    [flat_row urgent_elsewhere]).
  - apply Forall_cons; [exact I|].
    apply Forall_cons; [|apply Forall_nil].
    intros k v [-> | ->]; intros [= <-]; exact I.
  - reflexivity.
  - left. reflexivity.
Defined.

(** Two bodies that both get through the normalizer get through it joined,
    and keep the rows of the first followed by the rows of the second. *)
Theorem normalize_app (df1 df2 : list QueryRecord) (rows1 rows2 : list Row) :
  normalize df1 = Continue rows1 -> normalize df2 = Continue rows2 ->
  normalize (df1 ++ df2) = Continue (rows1 ++ rows2).
Proof.
  intros H1 H2.
  apply normalize_continue in H1. destruct H1 as (Hne & Hcol & Hn1 & -> & Hr1).
  apply normalize_continue in H2. destruct H2 as (_ & _ & Hn2 & -> & _).
  rewrite normalize_rows, geocode_in_columns_app, has_nan_app, Hcol, Hn1, Hn2.
  rewrite map_app, filter_app.
  destruct df1 as [|q df1]; [contradiction|]. cbn [app empty negb andb orb].
  destruct (filter notnull (map flat_row (q :: df1))) as [|x xs];
    [contradiction | reflexivity].
Qed.

Lemma normalize_app_witness :
  normalize ([null_geocode; scenario_c] ++ [urgent_elsewhere; half_geocoded]) =
  Continue ([flat_row scenario_c] ++ [flat_row urgent_elsewhere]).
Proof. apply normalize_app; reflexivity. Defined.

(** *** The key metrics *)

Lemma unique_length (s : list pyval) :
  (List.length (unique s) <= List.length s)%nat.
Proof.
  induction s as [|v s IH]; [apply Nat.le_refl|].
  cbn [unique List.length]. apply le_n_S.
  eapply Nat.le_trans; [apply filter_length_le | exact IH].
Qed.

(** On a rendered page the total is at least one and at most the number of
    records of the body, and neither the number of regions nor the number
    of urgent queries is above the total. *)
Theorem key_metrics_bounds (data : list QueryRecord) (page : Page) :
  run (Json data) = Continue page ->
  (1 <= total_queries page <= List.length data)%nat /\
  (number_of_regions page <= total_queries page)%nat /\
  (urgent_queries page <= total_queries page)%nat.
Proof.
  intros H. apply run_continue in H.
  destruct H as (data' & rows & [= <-] & Hn & ->).
  assert (Hlen : (List.length rows <= List.length data)%nat).
  { rewrite (normalize_geocoded _ _ Hn), length_map. apply filter_length_le. }
  apply normalize_continue in Hn. destruct Hn as (_ & _ & _ & _ & Hne).
  cbn [render total_queries number_of_regions urgent_queries].
  unfold present. rewrite !length_map. split; [|split].
  - split; [|exact Hlen]. destruct rows; [contradiction | cbn; lia].
  - unfold nunique.
    eapply Nat.le_trans; [apply unique_length|].
    eapply Nat.le_trans; [apply filter_length_le|].
    rewrite !length_map. apply Nat.le_refl.
  - eapply Nat.le_trans; [apply filter_length_le|].
    rewrite length_map. apply Nat.le_refl.
Qed.

Lemma key_metrics_bounds_witness :
  let page := render (present [flat_row scenario_c; flat_row urgent_elsewhere]) in
  (1 <= total_queries page <= 3)%nat /\
  (number_of_regions page <= total_queries page)%nat /\
  (urgent_queries page <= total_queries page)%nat.
Proof.
  intros page.
  apply (key_metrics_bounds [scenario_c; half_geocoded; urgent_elsewhere]).
  reflexivity.
Defined.

(** *** The tooltip and the colour *)

Lemma length_split_lines (s : string) :
  List.length (split_lines s) = S (count_lf s).
Proof.
  induction s as [|c s IH]; [reflexivity|].
  cbn [split_lines count_lf].
  destruct (Ascii.eqb c (ascii_of_nat 10)).
  - cbn [List.length]. now rewrite IH.
  - destruct (split_lines s); [discriminate | exact IH].
Qed.

Lemma count_lf_app (a b : string) :
  count_lf (a ++ b) = (count_lf a + count_lf b)%nat.
Proof.
  induction a as [|c a IH]; [reflexivity|].
  cbn [append count_lf]. rewrite IH. apply Nat.add_assoc.
Qed.

(** The tooltip has six lines and one more for every line feed inside the
    six printed fields: a line feed in an address or a description moves
    the labels that follow it down. *)
Theorem tooltip_line_count (x : QueryRecord) :
  List.length (split_lines (tooltip_text x)) =
  (6 + (count_lf (str (query_id x)) + count_lf (str (query_address x)) +
        count_lf (str (region x)) + count_lf (str (query_status x)) +
        count_lf (str (priority_status x)) +
        count_lf (str (query_description x))))%nat.
Proof.
  rewrite length_split_lines. unfold tooltip_text.
  rewrite !count_lf_app. cbn [count_lf LF Ascii.eqb ascii_of_nat].
  cbn. lia.
Qed.

(** Whatever the priority is, the colour is a list of four channels between
    0 and 255 whose last one, the opacity, is 200. *)
Theorem color_is_rgba (p : pyval) :
  List.length (priority_to_color p) = 4%nat /\
  Forall (fun c => (0 <= c <= 255)%Z) (priority_to_color p) /\
  nth 3 (priority_to_color p) 0%Z = 200%Z.
Proof.
  unfold priority_to_color.
  destruct (eq_str p "urgent"); [|destruct (eq_str p "high");
    [|destruct (eq_str p "medium")]];
    (split; [reflexivity|]; split; [|reflexivity]);
    repeat (apply Forall_cons; [lia|]); apply Forall_nil.
Qed.

Lemma eq_str_iff (p : pyval) (lit : string) :
  eq_str p lit = true <-> p = PyStr lit.
Proof.
  destruct p as [| |z|f|s]; cbn [eq_str];
    try (split; [discriminate | intros [=]]).
  rewrite String.eqb_eq. split; [now intros -> | now intros [= ->]].
Qed.

(** Each of the three named priorities has a colour of its own: a marker is
    red only for ['urgent'], yellow only for ['high'] and orange only for
    ['medium']. *)
Theorem color_identifies_priority (p : pyval) :
  (priority_to_color p = [255; 0; 0; 200]%Z <-> p = PyStr "urgent") /\
  (priority_to_color p = [255; 255; 0; 200]%Z <-> p = PyStr "high") /\
  (priority_to_color p = [255; 165; 0; 200]%Z <-> p = PyStr "medium").
Proof.
  unfold priority_to_color.
  destruct (eq_str p "urgent") eqn:Eu.
  { apply eq_str_iff in Eu. subst p.
    repeat split; try reflexivity; discriminate. }
  destruct (eq_str p "high") eqn:Eh.
  { apply eq_str_iff in Eh. subst p.
    repeat split; try reflexivity; discriminate. }
  destruct (eq_str p "medium") eqn:Em.
  { apply eq_str_iff in Em. subst p.
    repeat split; try reflexivity; discriminate. }
  repeat split; try discriminate; intros ->; discriminate.
Qed.

(** *** The charts *)

Lemma list_sum_cons (x : nat) (l : list nat) :
  list_sum (x :: l) = x + list_sum l.
Proof. reflexivity. Qed.

Lemma list_sum_perm (l l' : list nat) :
  Permutation l l' -> list_sum l = list_sum l'.
Proof.
  induction 1; simpl; lia.
Qed.

Lemma list_sum_map_add {A : Type} (f g : A -> nat) (l : list A) :
  list_sum (map (fun x => f x + g x) l) =
  list_sum (map f l) + list_sum (map g l).
Proof.
  induction l as [|x l IH]; [reflexivity|]. simpl. lia.
Qed.

Lemma indicator_sum_absent (v : pyval) (U : list pyval) :
  ~ In v U ->
  list_sum (map (fun u => if Py.eqb u v then 1 else 0) U) = 0.
Proof.
  induction U as [|u U IH]; [reflexivity|]. intros H. cbn [map]; rewrite !list_sum_cons.
  rewrite IH by (intros I; apply H; now right).
  destruct (Py.eqb u v) eqn:E; [|reflexivity].
  apply eqb_eq in E. subst. elim H. now left.
Qed.

Lemma indicator_sum (v : pyval) (U : list pyval) :
  NoDup U -> In v U ->
  list_sum (map (fun u => if Py.eqb u v then 1 else 0) U) = 1.
Proof.
  induction 1 as [|u U Hu HU IH]; [contradiction|].
  cbn [map]; rewrite !list_sum_cons. intros [->|Hin].
  - rewrite indicator_sum_absent by exact Hu.
    assert (E : Py.eqb v v = true) by now apply eqb_eq. now rewrite E.
  - rewrite (IH Hin). destruct (Py.eqb u v) eqn:E; [|reflexivity].
    apply eqb_eq in E. subst. contradiction.
Qed.

(** Counting the elements of [l] by their key, over keys that are distinct
    and include the key of every element, counts every element once. *)
Lemma count_by_key {A : Type} (k : A -> pyval) (l : list A) (U : list pyval) :
  NoDup U -> (forall x, In x l -> In (k x) U) ->
  list_sum (map (fun u => List.length (filter (fun x => Py.eqb u (k x)) l)) U) =
  List.length l.
Proof.
  intros HU. induction l as [|x l IH]; intros Hcov.
  - cbn [filter List.length]. clear. induction U as [|u U IH]; [reflexivity|].
    cbn [map]; rewrite list_sum_cons. exact IH.
  - rewrite (map_ext _ (fun u => (if Py.eqb u (k x) then 1 else 0) +
                                  List.length (filter (fun y => Py.eqb u (k y)) l))).
    2:{ intros u. cbn [filter]. destruct (Py.eqb u (k x)); reflexivity. }
    rewrite list_sum_map_add, indicator_sum, IH; auto.
    + intros y Hy. apply Hcov. now right.
    + apply Hcov. now left.
Qed.

Lemma eqb_str_l (lit : string) (v : pyval) :
  Py.eqb (PyStr lit) v = eq_str v lit.
Proof.
  destruct v; try reflexivity. cbn. apply String.eqb_sym.
Qed.

Lemma filter_str_notna (lit : string) (s : list pyval) :
  filter (Py.eqb (PyStr lit)) (filter (fun v => negb (isna v)) s) =
  filter (fun v => eq_str v lit) s.
Proof.
  induction s as [|v s IH]; [reflexivity|]. cbn [filter].
  destruct v; cbn [isna negb filter]; rewrite ?IH; try reflexivity.
  rewrite eqb_str_l. reflexivity.
Qed.

Lemma insert_by_perm {A : Type} (le : A -> A -> bool) (x : A) (l : list A) :
  Permutation (insert_by le x l) (x :: l).
Proof.
  induction l as [|y l IH]; [apply Permutation_refl|]. cbn [insert_by].
  destruct (le x y); [apply Permutation_refl|].
  eapply perm_trans; [apply perm_skip, IH | apply perm_swap].
Qed.

Lemma sort_by_perm {A : Type} (le : A -> A -> bool) (l : list A) :
  Permutation (sort_by le l) l.
Proof.
  induction l as [|x l IH]; [apply perm_nil|]. cbn [sort_by fold_right].
  eapply perm_trans; [apply insert_by_perm | apply perm_skip, IH].
Qed.

Lemma value_counts_entries (s : list pyval) (v : pyval) (n : nat) :
  let cells := filter (fun v => negb (isna v)) s in
  In (v, n) (map (fun v => (v, count_value v cells)) (unique cells)) <->
  In v cells /\ n = count_value v cells.
Proof.
  intros cells. rewrite in_map_iff. split.
  - intros (u & [= <- <-] & Hu). split; [now apply unique_In | reflexivity].
  - intros [Hv ->]. exists v. split; [reflexivity | now apply unique_In].
Qed.

Lemma count_value_pos (v : pyval) (s : list pyval) :
  In v s <-> (0 < count_value v s)%nat.
Proof.
  unfold count_value. induction s as [|w s IH].
  - cbn. split; [contradiction | lia].
  - cbn [In filter]. destruct (Py.eqb v w) eqn:E.
    + cbn [List.length]. apply eqb_eq in E. split; [lia | auto].
    + rewrite <- IH. split; [|auto]. intros [->|H]; [|exact H].
      assert (Py.eqb v v = true) by now apply eqb_eq. congruence.
Qed.

Section ValueCounts.

Variable sort_values : list (pyval * nat) -> list (pyval * nat).
Hypothesis sort_values_perm : forall l, Permutation (sort_values l) l.

Lemma value_counts_sum (s : list pyval) :
  list_sum (map snd (value_counts sort_values s)) =
  List.length (filter (fun v => negb (isna v)) s).
Proof.
  unfold value_counts.
  rewrite (list_sum_perm _ _ (Permutation_map snd (sort_values_perm _))).
  rewrite map_map. cbn [snd]. unfold count_value.
  apply (count_by_key (fun v => v)).
  - apply unique_NoDup.
  - intros v Hv. now apply unique_In.
Qed.

Lemma value_counts_str (s : list pyval) (lit : string) (n : nat) :
  In (PyStr lit, n) (value_counts sort_values s) <->
  n = List.length (filter (fun v => eq_str v lit) s) /\ (0 < n)%nat.
Proof.
  unfold value_counts.
  - split.
    + intros H. apply (Permutation_in _ (sort_values_perm _)) in H.
      apply value_counts_entries in H. destruct H as [Hin ->].
      apply count_value_pos in Hin. unfold count_value in *.
      rewrite filter_str_notna in *. auto.
    + intros [-> Hpos].
      apply (Permutation_in _ (Permutation_sym (sort_values_perm _))).
      apply value_counts_entries. unfold count_value.
      rewrite filter_str_notna. split; [|reflexivity].
      apply count_value_pos. unfold count_value.
      now rewrite filter_str_notna.
Qed.

(** The counts of a [value_counts] add up to the number of cells of the
    column that are not null: a pie chart has a share for every row that has
    a label, and none for a row that has not. *)
Theorem value_counts_total (s : list pyval) :
  list_sum (map snd (value_counts sort_values s)) =
  List.length (filter (fun v => negb (isna v)) s).
Proof. apply value_counts_sum. Qed.

(** No label has two entries in a [value_counts], and a string label has an
    entry exactly when some cell of the column is that string; its count is
    then the number of those cells. *)
Theorem value_counts_label (s : list pyval) :
  NoDup (map fst (value_counts sort_values s)) /\
  forall (lit : string) (n : nat),
    In (PyStr lit, n) (value_counts sort_values s) <->
    n = List.length (filter (fun v => eq_str v lit) s) /\ (0 < n)%nat.
Proof.
  split; [|apply value_counts_str].
  unfold value_counts. eapply Permutation_NoDup.
  - apply Permutation_sym, Permutation_map, sort_values_perm.
  - rewrite map_map. cbn [fst]. rewrite map_id. apply unique_NoDup.
Qed.

(** The charts and the metrics of one page agree: the share of ['urgent'] in
    the priority chart is the metric of urgent queries, the bar chart has as
    many bars as the metric of regions counts, and the shares of either pie
    chart add up to no more than the total. *)
Theorem charts_agree_with_metrics (r : response) (page : Page) :
  run r = Continue page ->
  (forall n, In (PyStr "urgent", n) (priority_counts sort_values (table page)) <->
             n = urgent_queries page /\ (0 < n)%nat) /\
  List.length (region_counts sort_values (table page)) = number_of_regions page /\
  (list_sum (map snd (priority_counts sort_values (table page)))
     <= total_queries page)%nat /\
  (list_sum (map snd (status_counts sort_values (table page)))
     <= total_queries page)%nat.
Proof.
  intros H. apply run_continue in H. destruct H as (_ & rows & _ & _ & ->).
  cbn [render table urgent_queries number_of_regions total_queries].
  unfold priority_counts, region_counts, status_counts.
  split; [|split; [|split]].
  - intros n. rewrite value_counts_str.
    rewrite (filter_map_swap (fun v => eq_str v "urgent") priority_of).
    rewrite length_map. reflexivity.
  - unfold value_counts, nunique.
    rewrite (Permutation_length (sort_values_perm _)). apply length_map.
  - rewrite value_counts_sum.
    eapply Nat.le_trans; [apply filter_length_le|]. now rewrite length_map.
  - rewrite value_counts_sum.
    eapply Nat.le_trans; [apply filter_length_le|]. now rewrite length_map.
Qed.

End ValueCounts.

Lemma value_counts_total_witness :
  list_sum (map snd (value_counts by_count_desc
                       [PyStr "high"; PyNone; PyStr "urgent"; PyStr "high"])) =
  3%nat.
Proof.
  apply (value_counts_total by_count_desc
           (fun l => sort_by_perm _ l)
           [PyStr "high"; PyNone; PyStr "urgent"; PyStr "high"]).
Defined.

Lemma value_counts_label_witness :
  In (PyStr "Gauteng", 2%nat)
     (value_counts by_count_desc
        [PyStr "Western Cape"; PyStr "Gauteng"; PyNone; PyStr "Gauteng"]).
Proof.
  apply (proj2 (value_counts_label by_count_desc (fun l => sort_by_perm _ l)
                  [PyStr "Western Cape"; PyStr "Gauteng"; PyNone; PyStr "Gauteng"])).
  split; [reflexivity | cbn; lia].
Defined.

Lemma charts_agree_with_metrics_witness :
  let page := render (present [flat_row scenario_c; flat_row second_in_gauteng;
                               flat_row urgent_elsewhere]) in
  (forall n, In (PyStr "urgent", n) (priority_counts by_count_desc (table page)) <->
             n = urgent_queries page /\ (0 < n)%nat) /\
  List.length (region_counts by_count_desc (table page)) = number_of_regions page /\
  (list_sum (map snd (priority_counts by_count_desc (table page)))
     <= total_queries page)%nat /\
  (list_sum (map snd (status_counts by_count_desc (table page)))
     <= total_queries page)%nat.
Proof.
  intros page.
  apply (charts_agree_with_metrics by_count_desc (fun l => sort_by_perm _ l)
           (Json [scenario_c; second_in_gauteng; null_geocode; urgent_elsewhere])).
  reflexivity.
Defined.

Lemma isna_not_str (a : pyval) (lit : string) :
  isna a = true -> eq_str a lit = false.
Proof. destruct a; [reflexivity | reflexivity | discriminate..]. Qed.

Lemma count_pair_str (r p : string) (l : list (pyval * pyval)) :
  count_pair (PyStr r) (PyStr p)
    (filter (fun c => negb (isna (fst c)) && negb (isna (snd c))) l) =
  List.length (filter (fun c => eq_str (fst c) r && eq_str (snd c) p) l).
Proof.
  unfold count_pair. induction l as [|[a b] l IH]; [reflexivity|].
  cbn [filter fst snd].
  destruct (isna a) eqn:Ea; cbn [negb andb].
  { rewrite (isna_not_str a r Ea). exact IH. }
  destruct (isna b) eqn:Eb; cbn [negb andb].
  { rewrite (isna_not_str b p Eb), andb_false_r. exact IH. }
  cbn [filter fst snd]. rewrite !eqb_str_l.
  destruct (eq_str a r && eq_str b p); cbn [List.length]; now rewrite IH.
Qed.

Lemma combine_map {A B C : Type} (f : A -> B) (g : A -> C) (l : list A) :
  combine (map f l) (map g l) = map (fun x => (f x, g x)) l.
Proof.
  induction l as [|x l IH]; [reflexivity|]. cbn [map combine]. now rewrite IH.
Qed.

Lemma filter_filter_and {A : Type} (f g : A -> bool) (l : list A) :
  filter g (filter f l) = filter (fun x => f x && g x) l.
Proof.
  induction l as [|x l IH]; [reflexivity|]. cbn [filter].
  destruct (f x); cbn [andb filter]; [destruct (g x)|]; now rewrite IH.
Qed.

Section CrossTab.

Variable sort_labels : list pyval -> list pyval.
Hypothesis sort_labels_perm : forall l, Permutation (sort_labels l) l.

(** In the table of regions by priorities, a string is the label of a line
    exactly when some row of the frame has it as region and has a priority;
    no region has two lines; and the cell of a region and a priority, both
    strings, is the number of rows of the frame with that region and that
    priority. *)
Theorem region_by_priority_cells (df : list DisplayRow) :
  let t := region_by_priority sort_labels df in
  NoDup (map fst t) /\
  (forall r, In (PyStr r) (map fst t) <->
     exists d, In d df /\ region_of d = PyStr r /\ isna (priority_of d) = false) /\
  (forall r p line n, In (PyStr r, line) t -> In (PyStr p, n) line ->
     n = List.length
           (filter (fun d => eq_str (region_of d) r && eq_str (priority_of d) p) df)).
Proof.
  cbn zeta. unfold region_by_priority, crosstab.
  rewrite combine_map.
  set (pairs := filter _ (map _ df)).
  split; [|split].
  - rewrite map_map. cbn [fst]. rewrite map_id.
    eapply Permutation_NoDup;
      [apply Permutation_sym, sort_labels_perm | apply unique_NoDup].
  - intros r. rewrite map_map. cbn [fst]. rewrite map_id. split.
    + intros H. apply (Permutation_in _ (sort_labels_perm _)) in H.
      apply unique_In, in_map_iff in H. destruct H as ([a b] & Ha & Hin).
      cbn [fst] in Ha. subst a. apply filter_In in Hin.
      destruct Hin as [Hin Hn]. apply in_map_iff in Hin.
      destruct Hin as (d & [= Hr Hp] & Hd). exists d.
      cbn [fst snd] in Hn. rewrite Hp. now destruct (isna b).
    + intros (d & Hd & Hr & Hp).
      apply (Permutation_in _ (Permutation_sym (sort_labels_perm _))).
      apply unique_In, in_map_iff. exists (PyStr r, priority_of d).
      split; [reflexivity|]. apply filter_In. split.
      * apply in_map_iff. exists d. now rewrite Hr.
      * cbn [fst snd isna negb andb]. now rewrite Hp.
  - intros r p line n Hline Hn. apply in_map_iff in Hline.
    destruct Hline as (r' & [= -> <-] & _). apply in_map_iff in Hn.
    destruct Hn as (p' & [= -> <-] & _). unfold pairs.
    rewrite count_pair_str.
    rewrite (filter_map_swap
               (fun c : pyval * pyval => eq_str (fst c) r && eq_str (snd c) p)
               (fun d => (region_of d, priority_of d))).
    apply length_map.
Qed.

(** The cells of the table of regions by priorities add up to the number of
    rows of the frame that have both a region and a priority. *)
Theorem region_by_priority_total (df : list DisplayRow) :
  crosstab_total (region_by_priority sort_labels df) =
  List.length
    (filter (fun d => negb (isna (region_of d)) && negb (isna (priority_of d))) df).
Proof.
  unfold crosstab_total, region_by_priority, crosstab.
  rewrite combine_map.
  rewrite <- (length_map (fun d => (region_of d, priority_of d))
                         (filter _ df)).
  rewrite <- (filter_map_swap
                (fun c : pyval * pyval => negb (isna (fst c)) && negb (isna (snd c)))
                (fun d => (region_of d, priority_of d))).
  set (pairs := filter _ (map _ df)).
  rewrite map_map. cbn [snd].
  rewrite (map_ext _ (fun r => List.length
                                 (filter (fun c => Py.eqb r (fst c)) pairs))).
  - rewrite (list_sum_perm _ _ (Permutation_map _ (sort_labels_perm _))).
    apply (count_by_key fst); [apply unique_NoDup|].
    intros c Hc. apply unique_In, in_map. exact Hc.
  - intros r. rewrite map_map. cbn [snd].
    rewrite (list_sum_perm _ _ (Permutation_map _ (sort_labels_perm _))).
    unfold count_pair.
    rewrite (map_ext _ (fun p => List.length
               (filter (fun c => Py.eqb p (snd c))
                       (filter (fun c => Py.eqb r (fst c)) pairs)))).
    + apply (count_by_key snd); [apply unique_NoDup|].
      intros c Hc. apply filter_In in Hc. destruct Hc as [Hc _].
      apply unique_In, in_map. exact Hc.
    + intros p. now rewrite filter_filter_and.
Qed.

End CrossTab.

Lemma region_by_priority_cells_witness :
  let df := present [flat_row scenario_c; flat_row second_in_gauteng;
                     flat_row urgent_elsewhere; flat_row scenario_c] in
  In (PyStr "Gauteng", [(PyStr "high", 1%nat); (PyStr "urgent", 2%nat)])
     (region_by_priority by_label df) /\
  2%nat = List.length
            (filter (fun d => eq_str (region_of d) "Gauteng" &&
                              eq_str (priority_of d) "urgent") df).
Proof.
  intros df.
  assert (H : In (PyStr "Gauteng",
                  [(PyStr "high", 1%nat); (PyStr "urgent", 2%nat)])
                 (region_by_priority by_label df)) by (left; reflexivity).
  split; [exact H|].
  apply (proj2 (proj2 (region_by_priority_cells by_label
                         (fun l => sort_by_perm _ l) df))
           "Gauteng" "urgent" _ 2%nat H).
  right. left. reflexivity.
Defined.

Lemma region_by_priority_total_witness :
  crosstab_total
    (region_by_priority by_label
       (present [flat_row scenario_c; flat_row half_geocoded;
                 flat_row urgent_elsewhere])) = 2%nat.
Proof.
  apply (region_by_priority_total by_label (fun l => sort_by_perm _ l)
           (present [flat_row scenario_c; flat_row half_geocoded;
                     flat_row urgent_elsewhere])).
Defined.

(** *** The order of the records *)

Lemma existsb_perm {A : Type} (f : A -> bool) (l l' : list A) :
  Permutation l l' -> existsb f l = existsb f l'.
Proof.
  induction 1 as [|x l l' _ IH|x y l|l l' l'' _ IH1 _ IH2]; cbn [existsb].
  - reflexivity.
  - now rewrite IH.
  - rewrite !orb_assoc. f_equal. apply orb_comm.
  - now rewrite IH1.
Qed.

Lemma filter_perm {A : Type} (f : A -> bool) (l l' : list A) :
  Permutation l l' -> Permutation (filter f l) (filter f l').
Proof.
  induction 1 as [|x l l' _ IH|x y l|l l' l'' _ IH1 _ IH2]; cbn [filter].
  - apply perm_nil.
  - destruct (f x); [apply perm_skip|]; exact IH.
  - destruct (f x), (f y); try apply Permutation_refl. apply perm_swap.
  - eapply perm_trans; eassumption.
Qed.

Lemma empty_perm {A : Type} (l l' : list A) :
  Permutation l l' -> empty l = empty l'.
Proof.
  intros H. apply Permutation_length in H.
  destruct l, l'; try reflexivity; discriminate.
Qed.

Lemma nunique_perm (s s' : list pyval) :
  Permutation s s' -> nunique s = nunique s'.
Proof.
  intros H. unfold nunique. apply Permutation_length.
  apply NoDup_Permutation; try apply unique_NoDup.
  intros v. rewrite !unique_In.
  split; apply Permutation_in;
    [|apply Permutation_sym]; apply filter_perm, H.
Qed.

(** The order in which the body lists its records decides nothing but the
    order of the rows: two bodies with the same records come to the same
    end, and when that end is the page, to the same rows and to the same
    three metrics. *)
Theorem record_order_is_immaterial (data data' : list QueryRecord) :
  Permutation data data' ->
  match run (Json data), run (Json data') with
  | Continue page, Continue page' =>
      Permutation (table page) (table page') /\
      total_queries page = total_queries page' /\
      number_of_regions page = number_of_regions page' /\
      urgent_queries page = urgent_queries page'
  | Stop b, Stop b' => b = b'
  | Uncaught e, Uncaught e' => e = e'
  | _, _ => False
  end.
Proof.
  intros H.
  pose proof (run_cases (Json data)) as R. cbn beta iota in R.
  pose proof (run_cases (Json data')) as R'. cbn beta iota in R'.
  assert (Hrows : Permutation (filter notnull (map flat_row data))
                              (filter notnull (map flat_row data')))
    by now apply filter_perm, Permutation_map.
  rewrite <- (empty_perm _ _ H) in R'.
  unfold geocode_in_columns, has_nan in R, R'.
  rewrite <- (existsb_perm _ _ _ H) in R'.
  rewrite <- (existsb_perm _ _ _ H) in R'.
  rewrite <- (empty_perm _ _ Hrows) in R'.
  destruct (negb (empty data) && existsb _ data); [|now rewrite R, R'].
  destruct (existsb _ data); [now rewrite R, R'|].
  destruct (empty (filter notnull (map flat_row data))); [now rewrite R, R'|].
  rewrite R, R'. cbn [render table total_queries number_of_regions urgent_queries].
  assert (Ht : Permutation (present (filter notnull (map flat_row data)))
                           (present (filter notnull (map flat_row data'))))
    by now apply Permutation_map.
  split; [exact Ht|]. split; [now apply Permutation_length|]. split.
  - apply nunique_perm. now apply Permutation_map.
  - apply Permutation_length. now apply filter_perm.
Qed.

Lemma record_order_is_immaterial_witness :
  match run (Json [scenario_c; null_geocode; urgent_elsewhere]),
        run (Json [urgent_elsewhere; scenario_c; null_geocode]) with
  | Continue page, Continue page' =>
      Permutation (table page) (table page') /\
      total_queries page = total_queries page' /\
      number_of_regions page = number_of_regions page' /\
      urgent_queries page = urgent_queries page'
  | Stop b, Stop b' => b = b'
  | Uncaught e, Uncaught e' => e = e'
  | _, _ => False
  end.
Proof.
  apply record_order_is_immaterial.
  eapply perm_trans; [apply perm_skip, perm_swap | apply perm_swap].
Defined.

(** *** The CSV export *)













